(** * Lichen Social: a shallow embedding of [main.py]

    The service is a FastAPI application over a relational store.  Its
    handlers are embedded as computations in a small state-and-exception
    monad over a store session; the values that travel through JWT claims
    are embedded as a fragment of Python's dynamic values; the three
    relations ([users], [posts], [follows]) are lists of rows. *)

From Stdlib Require Import ZArith String Ascii List Lia.
From Stdlib Require Import Decimal DecimalString DecimalZ.
From stdpp Require Import base option list gmap strings.

Local Open Scope Z_scope.
Local Open Scope string_scope.

(** ** Python values, exceptions and outcomes *)

(** A float, as far as [int] can tell floats apart: a finite float is
    known by its truncation towards zero; the infinities and the
    not-a-number stand alone. *)
Inductive pyfloat : Type :=
| Finite (truncated : Z)
| Infinity
| NaN.

(** The values that a decoded claim set can hold.  A list or an object
    is kept as [PyContainer]: nothing here looks inside one. *)
Inductive pyval : Type :=
| PyNone
| PyBool (b : bool)
| PyInt (z : Z)
| PyFloat (f : pyfloat)
| PyStr (s : string)
| PyContainer.

(** The exceptions that the handlers raise or let through.  The three
    [jose] exceptions form a small hierarchy: [ExpiredSignatureError] and
    [JWTClaimsError] are subclasses of [JWTError]. *)
Inductive exn : Type :=
| HTTPException (status_code : Z) (detail : option string)
| JWTError
| ExpiredSignatureError
| JWTClaimsError
| TypeError
| ValueError
| OverflowError
| ArgumentError.

Definition isinstance_JWTError (e : exn) : bool :=
  match e with
  | JWTError | ExpiredSignatureError | JWTClaimsError => true
  | _ => false
  end.

Inductive outcome (A : Type) : Type :=
| Return (a : A)
| Raise (e : exn).
Arguments Return {A} a.
Arguments Raise {A} e.

(** [x is None] *)
Definition is_None (v : pyval) : bool :=
  match v with PyNone => true | _ => false end.

(** [d.get(k)]: the value, or [None] when the key is absent. *)
Definition dict_get (d : gmap string pyval) (k : string) : pyval :=
  default PyNone (d !! k).

(** ** The builtins [str] and [int] *)

(** A Python string is held as the bytes of its UTF-8 encoding. *)
Module Builtins.

Local Open Scope Z_scope.

(** [str(n)] for an integer: decimal digits, a leading minus sign for
    negatives.  Integers are unbounded here, as in Python; the
    interpreter's cap on the length of a numeral (thousands of digits) is
    far beyond any store-generated key and is not part of the model. *)
Definition str (n : Z) : string := NilZero.string_of_int (Z.to_int n).

Definition byte (c : ascii) : Z := Z.of_N (N_of_ascii c).

Definition chr (n : Z) : ascii := ascii_of_N (Z.to_N n).

(** The whitespace that the parser of integer literals skips at both
    ends: tab, line feed, vertical tab, form feed, carriage return and
    space. *)
Definition is_space (c : ascii) : bool :=
  let n := byte c in
  ((9 <=? n) && (n <=? 13)) || (n =? 32).

Fixpoint lstrip (s : string) : string :=
  match s with
  | EmptyString => EmptyString
  | String c s' => if is_space c then lstrip s' else s
  end.

Fixpoint rstrip (s : string) : string :=
  match s with
  | EmptyString => EmptyString
  | String c s' =>
      match rstrip s' with
      | EmptyString => if is_space c then EmptyString else String c EmptyString
      | r => String c r
      end
  end.

Definition strip (s : string) : string := rstrip (lstrip s).

(** Every character is an ASCII character. *)
Fixpoint is_ascii (s : string) : bool :=
  match s with
  | EmptyString => true
  | String c s' => (byte c <? 128) && is_ascii s'
  end.

(** The code points of the digit zero in the scripts that have decimal
    digits, beyond ASCII; the nine code points after each are its digits
    one to nine.  The list is that of Unicode 14.0, the tables of
    CPython 3.11. *)
Definition decimal_zeros : list Z :=
  [ 1632; 1776; 1984; 2406; 2534; 2662; 2790; 2918; 3046; 3174; 3302;
    3430; 3558; 3664; 3792; 3872; 4160; 4240; 6112; 6160; 6470; 6608;
    6784; 6800; 6992; 7088; 7232; 7248; 42528; 43216; 43264; 43472;
    43504; 43600; 44016; 65296; 66720; 68912; 69734; 69872; 69942;
    70096; 70384; 70736; 70864; 71248; 71360; 71472; 71904; 72016;
    72784; 73040; 73120; 92768; 92864; 93008; 120782; 120792; 120802;
    120812; 120822; 123200; 123632; 125264; 130032 ].

(** The code points beyond ASCII on which [str.isspace] is true. *)
Definition unicode_spaces : list Z :=
  [ 133; 160; 5760; 8192; 8193; 8194; 8195; 8196; 8197; 8198; 8199;
    8200; 8201; 8202; 8232; 8233; 8239; 8287; 12288 ].

(** The decimal value of a code point that is a digit. *)
Definition decimal (cp : Z) : option Z :=
  (fun zero => cp - zero) <$>
  find (fun zero => (zero <=? cp) && (cp <=? zero + 9)) decimal_zeros.

(** What [int] makes of one character of a string that is not all
    ASCII: characters below 127 stay, a space becomes an ASCII space, a
    decimal digit becomes its ASCII digit, nothing else is accepted. *)
Definition to_ascii_char (cp : Z) : option ascii :=
  if cp <? 127 then Some (chr cp)
  else if bool_decide (cp ∈ unicode_spaces) then Some " "%char
  else (fun d => chr (48 + d)) <$> decimal cp.

Definition emit (cp : Z) (rest : string) : string :=
  match to_ascii_char cp with
  | Some c => String c rest
  | None => "?"
  end.

(** The six payload bits of a continuation byte. *)
Definition continuation (c : ascii) : option Z :=
  let b := byte c in
  if (128 <=? b) && (b <? 192) then Some (b - 128) else None.

(** Character by character through the UTF-8 encoding; the output ends
    with a question mark at the first character that is not accepted. *)
Fixpoint transform (s : string) : string :=
  match s with
  | EmptyString => EmptyString
  | String c0 r0 =>
      let b0 := byte c0 in
      if b0 <? 128 then emit b0 (transform r0)
      else if (194 <=? b0) && (b0 <? 224) then
        match r0 with
        | String c1 r1 =>
            match continuation c1 with
            | Some x1 => emit ((b0 - 192) * 64 + x1) (transform r1)
            | None => "?"
            end
        | _ => "?"
        end
      else if (224 <=? b0) && (b0 <? 240) then
        match r0 with
        | String c1 (String c2 r2) =>
            match continuation c1, continuation c2 with
            | Some x1, Some x2 =>
                let cp := (b0 - 224) * 4096 + x1 * 64 + x2 in
                if 2048 <=? cp then emit cp (transform r2) else "?"
            | _, _ => "?"
            end
        | _ => "?"
        end
      else if (240 <=? b0) && (b0 <? 245) then
        match r0 with
        | String c1 (String c2 (String c3 r3)) =>
            match continuation c1, continuation c2, continuation c3 with
            | Some x1, Some x2, Some x3 =>
                let cp := (b0 - 240) * 262144 + x1 * 4096 + x2 * 64 + x3 in
                if (65536 <=? cp) && (cp <=? 1114111)
                then emit cp (transform r3) else "?"
            | _, _, _ => "?"
            end
        | _ => "?"
        end
      else "?"
  end.

(** The ASCII text that the parser of integer literals is given: an
    ASCII string as it is, any other string character by character. *)
Definition to_ascii (s : string) : string :=
  if is_ascii s then s else transform s.

Definition digit_of_ascii (c : ascii) : option (uint -> uint) :=
  match c with
  | "0"%char => Some D0 | "1"%char => Some D1 | "2"%char => Some D2
  | "3"%char => Some D3 | "4"%char => Some D4 | "5"%char => Some D5
  | "6"%char => Some D6 | "7"%char => Some D7 | "8"%char => Some D8
  | "9"%char => Some D9
  | _ => None
  end.

(** The digit part of an integer literal: one or more digits, where a
    single underscore may stand between two digits. *)
Fixpoint parse_digits (s : string) : option uint :=
  match s with
  | EmptyString => None
  | String c rest =>
      match digit_of_ascii c with
      | None => None
      | Some d =>
          match rest with
          | EmptyString => Some (d Nil)
          | String "_"%char rest' => option_map d (parse_digits rest')
          | _ => option_map d (parse_digits rest)
          end
      end
  end.

(** An optional sign in front of the digit part. *)
Definition split_sign (t : string) : bool * string :=
  match t with
  | String c r =>
      if Ascii.eqb c "-" then (true, r)
      else if Ascii.eqb c "+" then (false, r)
      else (false, t)
  | EmptyString => (false, t)
  end.

(** [int(s)] for a string, base ten: surrounding whitespace is dropped,
    one sign is allowed, then the digit part.  Anything else raises
    [ValueError].  The interpreter's cap on the length of a numeral is
    not part of the model, as for [str]: a numeral of thousands of
    digits is parsed here and raises [ValueError] there. *)
Definition int_of_str (s : string) : outcome pyval :=
  let '(neg, body) := split_sign (strip (to_ascii s)) in
  match parse_digits body with
  | Some d => Return (PyInt (if neg : bool then - Z.of_uint d else Z.of_uint d))
  | None => Raise ValueError
  end.

(** [int(x)]: [None], a list and an object raise [TypeError]; a string
    is parsed; a bool or an int is converted; a float is truncated,
    where an infinity raises [OverflowError] and a not-a-number raises
    [ValueError]. *)
Definition int (v : pyval) : outcome pyval :=
  match v with
  | PyNone => Raise TypeError
  | PyBool b => Return (PyInt (if b then 1 else 0))
  | PyInt z => Return (PyInt z)
  | PyFloat (Finite z) => Return (PyInt z)
  | PyFloat Infinity => Raise OverflowError
  | PyFloat NaN => Raise ValueError
  | PyStr s => int_of_str s
  | PyContainer => Raise TypeError
  end.

(** No character of [s] is whitespace. *)
Fixpoint no_space (s : string) : bool :=
  match s with
  | EmptyString => true
  | String c s' => negb (is_space c) && no_space s'
  end.

End Builtins.


(** ** Configuration *)

(** The module-level constants read from the environment at start-up. *)
Record Config : Type := {
  SECRET_KEY : string;
  ACCESS_TOKEN_EXPIRE_MINUTES : Z
}.

Definition ALGORITHM : string := "HS256".

(** The defaults of [os.getenv]. *)
Definition default_config : Config :=
  {| SECRET_KEY := "change-me-in-prod"; ACCESS_TOKEN_EXPIRE_MINUTES := 15 |}.

(** ** The token codec ([jose.jwt]) *)

(** A bearer token is a string.  The compact serialisation is kept
    symbolic: a string either splits into a header, a claim set and a
    signature, or it does not. *)
Record jws : Type := {
  header_alg : string;
  claims : gmap string pyval;
  signature : string
}.

Inductive token : Type :=
| Malformed (raw : string)
| Compact (t : jws).

(** ** The store *)

(** Modelled from the spec: the table declarations are not part of
    [main.py]; the rows carry the columns that the statements of
    [main.py] and the data model of the specification name.  Timestamps
    are whole numbers on the store's clock. *)
Module User.
Record t : Type := {
  id : Z;
  username : string;
  email : string;
  password_hash : string
}.
End User.

Module Post.
Record t : Type := {
  id : Z;
  user_id : Z;
  content : string;
  created_at : Z
}.
End Post.

Module Follow.
Record t : Type := {
  follower_id : Z;
  following_id : Z
}.
End Follow.

Record Store : Type := {
  users : list User.t;
  posts : list Post.t;
  follows : list Follow.t
}.

Definition empty_store : Store :=
  {| users := []; posts := []; follows := [] |}.

(** ** Store sessions *)

(** A session opened by [get_db]: statements act on [working], the state
    seen inside the transaction; [commit] makes it durable. *)
Record AsyncSession : Type := {
  committed : Store;
  working : Store
}.

(** A handler body: it runs against a session and either returns a value
    or raises. *)
Definition DB (A : Type) : Type := AsyncSession -> outcome A * AsyncSession.

#[global] Instance DB_ret : MRet DB := fun A a s => (Return a, s).

#[global] Instance DB_bind : MBind DB := fun A B k m s =>
  match m s with
  | (Return a, s') => k a s'
  | (Raise e, s') => (Raise e, s')
  end.

(** [raise e] *)
Definition raise {A} (e : exn) : DB A := fun s => (Raise e, s).

(** [await db.commit()] *)
Definition commit : DB unit :=
  fun s => (Return tt, {| committed := working s; working := working s |}).

(** [get_db]: the session is opened on the durable state, handed to the
    handler, and closed on every exit path; work that was not committed
    is dropped with it. *)
Definition get_db {A} (handler : DB A) (st : Store) : outcome A * Store :=
  let '(r, s) := handler {| committed := st; working := st |} in
  (r, committed s).

(** [await db.execute(statement, *params)] on the [AsyncSession] that
    [get_db] yields.  The method takes the statement and at most one
    further positional argument, so a call with more of them fails with
    [TypeError] when its arguments are bound; and it takes an executable
    statement, so the plain SQL strings that the routes pass are refused
    with [ArgumentError].  Either way the call raises before anything
    reaches the store.  [R] is the shape of the rows that the column
    list of the statement names, for the code that follows the call. *)
Definition execute {R : Type} (statement : string) (params : list pyval)
  : DB (list R) :=
  if decide (1 < length params)%nat
  then raise TypeError
  else raise ArgumentError.

(** [result.fetchone()] *)
Definition fetchone {A} (rows : list A) : option A := head rows.

(** [result.fetchall()] *)
Definition fetchall {A} (rows : list A) : list A := rows.

(** ** Request and response shapes *)

Module UserCreate.
Record t : Type := { username : string; email : string; password : string }.
End UserCreate.

Module OAuth2PasswordRequestForm.
Record t : Type := { username : string; password : string }.
End OAuth2PasswordRequestForm.

Module PostCreate.
Record t : Type := { content : string }.
End PostCreate.

(** The four-key dictionaries of the feed. *)
Module PostOut.
Record t : Type := { id : Z; content : string; user_id : Z; created_at : Z }.
End PostOut.

(** [{"msg": ...}] *)
Record MsgOut : Type := { msg : string }.

(** [{"access_token": ..., "token_type": ...}] *)
Record TokenOut : Type := { access_token : token; token_type : string }.

(** [{"id": ..., "content": ..., "created_at": ...}] *)
Module NewPost.
Record t : Type := { id : Z; content : string; created_at : Z }.
End NewPost.

(** [{"message": ...}] *)
Record MessageOut : Type := { message : string }.

(** ** Exceptions outside a session *)

#[global] Instance outcome_ret : MRet outcome := fun A a => Return a.

#[global] Instance outcome_bind : MBind outcome := fun A B k m =>
  match m with
  | Return a => k a
  | Raise e => Raise e
  end.

(** [try: body except JWTError: handler] *)
Definition try_except_JWTError {A} (body : outcome A) (handler : outcome A)
  : outcome A :=
  match body with
  | Return a => Return a
  | Raise e => if isinstance_JWTError e then handler else Raise e
  end.

(** ** The checks of [jwt.decode] on registered claims *)

(** [isinstance(v, str)] *)
Definition is_str (v : pyval) : bool :=
  match v with PyStr _ => true | _ => false end.

(** Issued-at: an absent ["iat"] passes; a present one is converted with
    [int], where only [ValueError] is turned into a claims error. *)
Definition validate_iat (c : gmap string pyval) : outcome unit :=
  match c !! "iat" with
  | None => Return tt
  | Some v =>
      match Builtins.int v with
      | Raise ValueError => Raise JWTClaimsError
      | Raise e => Raise e
      | Return _ => Return tt
      end
  end.

(** Not-before: as issued-at, and the time must have come. *)
Definition validate_nbf (utcnow : Z) (c : gmap string pyval) : outcome unit :=
  match c !! "nbf" with
  | None => Return tt
  | Some v =>
      match Builtins.int v with
      | Raise ValueError => Raise JWTClaimsError
      | Raise e => Raise e
      | Return (PyInt nbf) =>
          if decide (utcnow < nbf) then Raise JWTClaimsError else Return tt
      | Return _ => Raise JWTClaimsError
      end
  end.

(** The expiry check: an absent ["exp"] passes; a present one is
    converted with [int], where only [ValueError] is turned into a claims
    error, and must not lie before the current time.  (The last branch
    is never taken: what [int] returns is an integer.) *)
Definition validate_exp (utcnow : Z) (c : gmap string pyval) : outcome unit :=
  match c !! "exp" with
  | None => Return tt
  | Some v =>
      match Builtins.int v with
      | Raise ValueError => Raise JWTClaimsError
      | Raise e => Raise e
      | Return (PyInt exp) =>
          if decide (exp < utcnow) then Raise ExpiredSignatureError else Return tt
      | Return _ => Raise JWTClaimsError
      end
  end.

(** Audience: the routes name no audience, and a token that carries
    ["aud"] is refused whatever the claim holds. *)
Definition validate_aud (c : gmap string pyval) : outcome unit :=
  match c !! "aud" with
  | None => Return tt
  | Some _ => Raise JWTClaimsError
  end.

(** The subject check: a present ["sub"] must be a string. *)
Definition validate_sub (c : gmap string pyval) : outcome unit :=
  match c !! "sub" with
  | None | Some (PyStr _) => Return tt
  | Some _ => Raise JWTClaimsError
  end.

(** Token id: a present ["jti"] must be a string. *)
Definition validate_jti (c : gmap string pyval) : outcome unit :=
  match c !! "jti" with
  | None | Some (PyStr _) => Return tt
  | Some _ => Raise JWTClaimsError
  end.

(** Access-token hash: the routes give no access token to compare with,
    and a token that carries ["at_hash"] is refused. *)
Definition validate_at_hash (c : gmap string pyval) : outcome unit :=
  match c !! "at_hash" with
  | None => Return tt
  | Some _ => Raise JWTClaimsError
  end.

(** The checks in the order in which [jwt.decode] runs them; no issuer
    is named, so ["iss"] is not looked at. *)
Definition validate_claims (utcnow : Z) (c : gmap string pyval) : outcome unit :=
  validate_iat c;;
  validate_nbf utcnow c;;
  validate_exp utcnow c;;
  validate_aud c;;
  validate_sub c;;
  validate_jti c;;
  validate_at_hash c.

Section Service.

(** The keyed signature of a header and a claim set under a secret. *)
Variable sign : string -> string -> gmap string pyval -> string.

(** [pwd_context.hash], which takes a fresh salt besides the password,
    and [pwd_context.verify]. *)
Variable pwd_context_hash : string -> string -> string.
Variable pwd_context_verify : string -> string -> bool.

Variable cfg : Config.

(** *** [jose.jwt] *)

(** [jwt.encode(claims, key, algorithm)]; a [datetime] under ["exp"] has
    already been turned into whole seconds. *)
Definition jwt_encode (to_encode : gmap string pyval) (key algorithm : string)
  : token :=
  Compact {| header_alg := algorithm;
             claims := to_encode;
             signature := sign key algorithm to_encode |}.

(** The signature check: the header's algorithm is one of the allowed
    ones and the signature is the one the key produces. *)
Definition jws_verify (key : string) (algorithms : list string) (t : jws) : bool :=
  bool_decide (header_alg t ∈ algorithms) &&
  bool_decide (signature t = sign key (header_alg t) (claims t)).

(** [jwt.decode(token, key, algorithms)] at time [utcnow]: the signature
    check, then the checks on registered claims. *)
Definition jwt_decode (utcnow : Z) (tok : token) (key : string)
  (algorithms : list string) : outcome (gmap string pyval) :=
  match tok with
  | Malformed _ => Raise JWTError
  | Compact t =>
      if jws_verify key algorithms t then
        validate_claims utcnow (claims t);;
        mret (claims t)
      else Raise JWTError
  end.

(** *** Utilities *)

Definition verify_password (plain hashed : string) : bool :=
  pwd_context_verify plain hashed.

Definition get_password_hash (salt password : string) : string :=
  pwd_context_hash salt password.

(** [create_access_token(data)] at time [utcnow] (whole seconds). *)
Definition create_access_token (utcnow : Z) (data : gmap string pyval) : token :=
  let to_encode := data in
  let expire := utcnow + 60 * ACCESS_TOKEN_EXPIRE_MINUTES cfg in
  let to_encode := <["exp" := PyInt expire]> to_encode in
  jwt_encode to_encode (SECRET_KEY cfg) ALGORITHM.

(** [get_current_user(token)] at time [utcnow]. *)
Definition get_current_user (utcnow : Z) (tok : token) : outcome pyval :=
  try_except_JWTError
    (payload ← jwt_decode utcnow tok (SECRET_KEY cfg) [ALGORITHM];
     user_id ← Builtins.int (dict_get payload "sub");
     if is_None user_id
     then Raise (HTTPException 401 None)
     else mret user_id)
    (Raise (HTTPException 401 (Some "Invalid token"))).

(** *** Routes *)

Definition register (salt : string) (user : UserCreate.t) : DB MsgOut :=
  result ← execute (R := Z)
             "SELECT id FROM users WHERE username = $1 OR email = $2"
             [PyStr (UserCreate.username user); PyStr (UserCreate.email user)];
  match fetchone result with
  | Some _ => raise (HTTPException 400 (Some "User already exists"))
  | None =>
      let hashed := get_password_hash salt (UserCreate.password user) in
      execute (R := unit)
        "INSERT INTO users (username, email, password_hash) VALUES ($1, $2, $3)"
        [PyStr (UserCreate.username user); PyStr (UserCreate.email user);
         PyStr hashed];;
      commit;;
      mret {| msg := "User created – welcome to Lichen Social 🌱" |}
  end.

Definition login (utcnow : Z) (form : OAuth2PasswordRequestForm.t) : DB TokenOut :=
  result ← execute (R := Z * string)
             "SELECT id, password_hash FROM users WHERE username = $1"
             [PyStr (OAuth2PasswordRequestForm.username form)];
  match fetchone result with
  | None => raise (HTTPException 401 (Some "Mauvais combo"))
  | Some user =>
      if negb (verify_password (OAuth2PasswordRequestForm.password form) user.2)
      then raise (HTTPException 401 (Some "Mauvais combo"))
      else
        let tok := create_access_token utcnow
                     {[ "sub" := PyStr (Builtins.str user.1) ]} in
        mret {| access_token := tok; token_type := "bearer" |}
  end.

(** Subscripting the [None] of an empty result raises [TypeError]. *)
Definition create_post (post : PostCreate.t) (user_id : Z) : DB NewPost.t :=
  result ← execute (R := Z * Z)
             "INSERT INTO posts (user_id, content) VALUES ($1, $2) RETURNING id, created_at"
             [PyInt user_id; PyStr (PostCreate.content post)];
  commit;;
  match fetchone result with
  | Some new_post =>
      mret {| NewPost.id := new_post.1;
              NewPost.content := PostCreate.content post;
              NewPost.created_at := new_post.2 |}
  | None => raise TypeError
  end.

Definition feed_query : string := "
    SELECT p.id, p.content, p.user_id, p.created_at 
    FROM posts p
    JOIN follows f ON p.user_id = f.following_id
    WHERE f.follower_id = $1
    ORDER BY p.created_at DESC
    LIMIT 50
    ".

Definition feed (user_id : Z) : DB (list PostOut.t) :=
  let query := feed_query in
  result ← execute (R := Z * string * Z * Z) query [PyInt user_id];
  let posts := fetchall result in
  mret ((fun p => {| PostOut.id := p.1.1.1;
                     PostOut.content := p.1.1.2;
                     PostOut.user_id := p.1.2;
                     PostOut.created_at := p.2 |}) <$> posts).

Definition follow (target_id user_id : Z) : DB MsgOut :=
  execute (R := unit)
    "INSERT INTO follows (follower_id, following_id) VALUES ($1, $2) ON CONFLICT DO NOTHING"
    [PyInt user_id; PyInt target_id];;
  commit;;
  mret {| msg := "Tu suis maintenant l'utilisateur " ++ Builtins.str target_id |}.

Definition root : MessageOut :=
  {| message := "Lichen Social est LIVE – premier réseau social symbiotique 🌱🤖" |}.

(** *** Routes behind the session guard *)

(** A route declared with [user_id: int = Depends(get_current_user)]
    and [db = Depends(get_db)]: the session guard runs first, and only
    when it returns is a session opened and the route's body run with
    the identity it returned.  When the guard raises, the request ends
    with that exception and no session is opened.  (The guard returns
    integers only; any other value could not be bound to the integer
    parameters of the statements.) *)
Definition Depends_get_current_user {A} (utcnow : Z) (tok : token)
  (route : Z -> DB A) (st : Store) : outcome A * Store :=
  match get_current_user utcnow tok with
  | Raise e => (Raise e, st)
  | Return (PyInt user_id) => get_db (route user_id) st
  | Return _ => (Raise TypeError, st)
  end.

(** *** The service as a transition system *)

(** One request to a route; a bearer token comes with the requests to
    the routes behind the session guard. *)
Inductive request : Type :=
| Register (salt : string) (user : UserCreate.t)
| Login (utcnow : Z) (form : OAuth2PasswordRequestForm.t)
| CreatePost (utcnow : Z) (tok : token) (post : PostCreate.t)
| Feed (utcnow : Z) (tok : token)
| FollowUser (utcnow : Z) (tok : token) (target_id : Z).

(** The durable state after a request has been served. *)
Definition serve (r : request) (st : Store) : Store :=
  match r with
  | Register salt user => (get_db (register salt user) st).2
  | Login utcnow form => (get_db (login utcnow form) st).2
  | CreatePost utcnow tok post =>
      (Depends_get_current_user utcnow tok (create_post post) st).2
  | Feed utcnow tok => (Depends_get_current_user utcnow tok feed st).2
  | FollowUser utcnow tok target_id =>
      (Depends_get_current_user utcnow tok (follow target_id) st).2
  end.

(** The states the service can be in, starting from empty tables. *)
Inductive reachable : Store -> Prop :=
| reachable_empty : reachable empty_store
| reachable_serve st r : reachable st -> reachable (serve r st).

End Service.

(** ** Sample collaborators and data *)

(** Stand-ins for the signing and hashing libraries and a few requests,
    used to run the service on concrete inputs. *)
Module Sample.

Definition sign (key algorithm : string) (c : gmap string pyval) : string :=
  key ++ "/" ++ algorithm ++ "/" ++
  match c !! "sub" with Some (PyStr s) => s | _ => "" end.

Definition hash (salt password : string) : string := salt ++ "$" ++ password.

Fixpoint after_dollar (s : string) : string :=
  match s with
  | EmptyString => EmptyString
  | String c r => if Ascii.eqb c "$" then r else after_dollar r
  end.

Definition verify (plain hashed : string) : bool :=
  String.eqb (after_dollar hashed) plain.

Definition signed (c : gmap string pyval) : jws :=
  {| header_alg := ALGORITHM;
     claims := c;
     signature := sign (SECRET_KEY default_config) ALGORITHM c |}.

(** A correctly signed token without a subject. *)
Definition no_sub : jws := signed ∅.

(** A correctly signed token whose subject is not a number. *)
Definition word_sub : jws := signed {[ "sub" := PyStr "abc" ]}.


(** A correctly signed token for user 2 without expiry. *)
Definition for_bob : jws := signed {[ "sub" := PyStr "2" ]}.

(** A correctly signed token for user 2 that is valid from 2000 on. *)
Definition not_yet : jws :=
  signed (<[ "nbf" := PyInt 2000 ]> {[ "sub" := PyStr "2" ]}).

(** A correctly signed token for user 2 that names an audience. *)
Definition with_aud : jws :=
  signed (<[ "aud" := PyStr "elsewhere" ]> {[ "sub" := PyStr "2" ]}).

Definition alice : UserCreate.t :=
  {| UserCreate.username := "alice";
     UserCreate.email := "alice@example.org";
     UserCreate.password := "wonderland" |}.

Definition bob : UserCreate.t :=
  {| UserCreate.username := "bob";
     UserCreate.email := "bob@example.org";
     UserCreate.password := "builder" |}.

Definition hello : PostCreate.t := {| PostCreate.content := "hello" |}.

Definition login_form (username password : string) : OAuth2PasswordRequestForm.t :=
  {| OAuth2PasswordRequestForm.username := username;
     OAuth2PasswordRequestForm.password := password |}.

(** A store that holds Alice, Bob, a post of Bob and Alice's follow
    edge to Bob. *)
Definition store : Store :=
  {| users := [ {| User.id := 1; User.username := "alice";
                   User.email := "alice@example.org";
                   User.password_hash := "s1$wonderland" |};
                {| User.id := 2; User.username := "bob";
                   User.email := "bob@example.org";
                   User.password_hash := "s2$builder" |} ];
     posts := [ {| Post.id := 1; Post.user_id := 2;
                   Post.content := "hello"; Post.created_at := 1000 |} ];
     follows := [ {| Follow.follower_id := 1; Follow.following_id := 2 |} ] |}.

(** Alice and Bob register, Bob logs in, posts and reads his feed with
    the token for user 2, and follows Alice. *)
Definition scenario : list request :=
  [ Register "s1" alice; Register "s2" bob;
    Login 0 (login_form "bob" "builder");
    CreatePost 0 (Compact for_bob) hello;
    Feed 0 (Compact for_bob);
    FollowUser 0 (Compact for_bob) 1 ].

Definition run (rs : list request) (st : Store) : Store :=
  foldl (fun st r => serve sign hash verify default_config r st) st rs.

End Sample.

(** * Properties *)

(** ** Sample conversions *)

Example str_42 : Builtins.str 42 = "42". Proof. reflexivity. Qed.
Example str_0 : Builtins.str 0 = "0". Proof. reflexivity. Qed.
Example str_neg : Builtins.str (-305) = "-305". Proof. reflexivity. Qed.
Example int_padded : Builtins.int (PyStr "  +1_000 ") = Return (PyInt 1000).
Proof. reflexivity. Qed.
Example int_leading_zero : Builtins.int (PyStr "-007") = Return (PyInt (-7)).
Proof. reflexivity. Qed.
Example int_bad_underscore : Builtins.int (PyStr "1__0") = Raise ValueError.
Proof. reflexivity. Qed.
Example int_trailing_underscore : Builtins.int (PyStr "10_") = Raise ValueError.
Proof. reflexivity. Qed.
Example int_empty : Builtins.int (PyStr "") = Raise ValueError.
Proof. reflexivity. Qed.
Example int_word : Builtins.int (PyStr "abc") = Raise ValueError.
Proof. reflexivity. Qed.
Example int_none : Builtins.int PyNone = Raise TypeError.
Proof. reflexivity. Qed.
Example int_file_separator :
  Builtins.int (PyStr (String (Builtins.chr 28) "7")) = Raise ValueError.
Proof. reflexivity. Qed.
Example int_delete :
  Builtins.int (PyStr (String (Builtins.chr 127) "7")) = Raise ValueError.
Proof. reflexivity. Qed.
Example int_arabic_indic : Builtins.int (PyStr "١٢٣") = Return (PyInt 123).
Proof. vm_compute. reflexivity. Qed.
Example int_fullwidth : Builtins.int (PyStr "１２") = Return (PyInt 12).
Proof. vm_compute. reflexivity. Qed.
Example int_arabic_underscore : Builtins.int (PyStr "٣_٣") = Return (PyInt 33).
Proof. vm_compute. reflexivity. Qed.
Example int_no_break_space : Builtins.int (PyStr " 7") = Return (PyInt 7).
Proof. vm_compute. reflexivity. Qed.
Example int_em_space : Builtins.int (PyStr "7 ") = Return (PyInt 7).
Proof. vm_compute. reflexivity. Qed.
Example int_inner_space : Builtins.int (PyStr "1 2") = Raise ValueError.
Proof. vm_compute. reflexivity. Qed.
Example int_accent : Builtins.int (PyStr "é1") = Raise ValueError.
Proof. vm_compute. reflexivity. Qed.
Example int_infinity : Builtins.int (PyFloat Infinity) = Raise OverflowError.
Proof. reflexivity. Qed.

(** ** [int] after [str] *)

Module BuiltinsFacts.
Import Builtins.

Lemma rstrip_no_space s : no_space s = true -> rstrip s = s.
Proof.
  induction s as [|c s IH]; simpl; [done|].
  intros [Hc Hs]%andb_true_iff. rewrite (IH Hs).
  destruct s; [|done].
  by apply negb_true_iff in Hc as ->.
Qed.

Lemma lstrip_no_space s : no_space s = true -> lstrip s = s.
Proof.
  destruct s as [|c s]; simpl; [done|].
  intros [Hc _]%andb_true_iff. by apply negb_true_iff in Hc as ->.
Qed.

Lemma strip_no_space s : no_space s = true -> strip s = s.
Proof.
  intros H. unfold strip. rewrite (lstrip_no_space _ H).
  by apply rstrip_no_space.
Qed.

Lemma no_space_string_of_uint d : no_space (NilEmpty.string_of_uint d) = true.
Proof. induction d; simpl; auto. Qed.

Lemma is_ascii_string_of_uint d : is_ascii (NilEmpty.string_of_uint d) = true.
Proof. induction d; simpl; auto. Qed.

(** A printed numeral goes to the parser as it is. *)
Lemma to_ascii_string_of_uint d :
  to_ascii (NilEmpty.string_of_uint d) = NilEmpty.string_of_uint d.
Proof. unfold to_ascii. by rewrite is_ascii_string_of_uint. Qed.

Lemma to_ascii_minus s : is_ascii s = true -> to_ascii (String "-" s) = String "-" s.
Proof. intros H. unfold to_ascii. cbn [is_ascii]. by rewrite H. Qed.

(** The first character of a printed digit string is never an
    underscore, so the parser moves on digit by digit. *)
Lemma parse_digits_step c D d :
  digit_of_ascii c = Some D ->
  d <> Nil ->
  parse_digits (NilEmpty.string_of_uint d) = Some d ->
  parse_digits (String c (NilEmpty.string_of_uint d)) = Some (D d).
Proof.
  intros Hc Hd IH. cbn [parse_digits]. rewrite Hc.
  destruct d; [congruence|..]; cbn [NilEmpty.string_of_uint] in *;
    cbv beta iota; by rewrite IH.
Qed.

Lemma parse_digits_string_of_uint d :
  d <> Nil -> parse_digits (NilEmpty.string_of_uint d) = Some d.
Proof.
  induction d as [|d IH|d IH|d IH|d IH|d IH|d IH|d IH|d IH|d IH|d IH];
    intros Hd; [done|..]; clear Hd;
    (destruct d as [|d'|d'|d'|d'|d'|d'|d'|d'|d'|d'] eqn:E; [done|..]);
    rewrite <- E in *; cbn [NilEmpty.string_of_uint];
    (apply parse_digits_step; [done|by rewrite E|apply IH; by rewrite E]).
Qed.

Lemma split_sign_string_of_uint d :
  split_sign (NilEmpty.string_of_uint d) = (false, NilEmpty.string_of_uint d).
Proof. by destruct d. Qed.

Lemma int_of_str_unsigned d :
  d <> Nil ->
  int_of_str (NilEmpty.string_of_uint d) = Return (PyInt (Z.of_uint d)).
Proof.
  intros Hd. unfold int_of_str. rewrite to_ascii_string_of_uint.
  rewrite strip_no_space by apply no_space_string_of_uint.
  rewrite split_sign_string_of_uint.
  by rewrite parse_digits_string_of_uint.
Qed.

Lemma int_of_str_negative d :
  d <> Nil ->
  int_of_str (String "-" (NilEmpty.string_of_uint d))
  = Return (PyInt (- Z.of_uint d)).
Proof.
  intros Hd. unfold int_of_str.
  rewrite to_ascii_minus by apply is_ascii_string_of_uint.
  rewrite strip_no_space by (simpl; apply no_space_string_of_uint).
  cbn [split_sign]. change (Ascii.eqb "-" "-") with true. cbv iota.
  by rewrite parse_digits_string_of_uint.
Qed.

(** Parsing a printed integer gives the integer back. *)
Lemma int_str (n : Z) : int (PyStr (str n)) = Return (PyInt n).
Proof.
  unfold int, str. rewrite <- (DecimalZ.of_to n) at 2.
  destruct (Z.to_int n) as [d|d]; cbn [NilZero.string_of_int Z.of_int];
    unfold NilZero.string_of_uint;
    (destruct (uint_eq_dec d Nil) as [->|Hd]; [done|]).
  - rewrite <- (int_of_str_unsigned d Hd). by destruct d.
  - rewrite <- (int_of_str_negative d Hd). by destruct d.
Qed.

Lemma int_of_str_cases s :
  (exists z, int_of_str s = Return (PyInt z)) \/ int_of_str s = Raise ValueError.
Proof.
  unfold int_of_str. destruct (split_sign (strip (to_ascii s))) as [neg body].
  destruct (parse_digits body); eauto.
Qed.

(** [int] never returns [None]: what it returns is an integer. *)
Lemma int_returns_int v r : int v = Return r -> exists z, r = PyInt z.
Proof.
  destruct v as [|b|z|[z| |]|s|]; simpl; try done; try (intros [= <-]; eauto).
  destruct (int_of_str_cases s) as [[z ->]| ->]; [|done].
  intros [= <-]; eauto.
Qed.

(** The three ways in which [int] fails. *)
Lemma int_raises v e :
  int v = Raise e -> e = TypeError \/ e = ValueError \/ e = OverflowError.
Proof.
  destruct v as [|b|z|[z| |]|s|]; simpl; try done; try (intros [= <-]; auto).
  destruct (int_of_str_cases s) as [[z ->]| ->]; [done|].
  intros [= <-]; auto.
Qed.

End BuiltinsFacts.

(** ** The session guard *)

Section GuardProperties.

Variable sign : string -> string -> gmap string pyval -> string.
Variable cfg : Config.

Local Abbreviation jws_verify := (jws_verify sign).
Local Abbreviation jwt_decode := (jwt_decode sign).
Local Abbreviation create_access_token := (create_access_token sign cfg).
Local Abbreviation get_current_user := (get_current_user sign cfg).

(** *** What the checks on registered claims raise *)

Lemma validate_iat_raises c e :
  validate_iat c = Raise e ->
  isinstance_JWTError e = true \/ e = TypeError \/ e = OverflowError.
Proof.
  unfold validate_iat. destruct (c !! "iat") as [v|]; [|done].
  destruct (Builtins.int v) as [r|e'] eqn:Hi; [done|].
  destruct (BuiltinsFacts.int_raises _ _ Hi) as [-> | [-> | ->]];
    intros [= <-]; auto.
Qed.

Lemma validate_nbf_raises utcnow c e :
  validate_nbf utcnow c = Raise e ->
  isinstance_JWTError e = true \/ e = TypeError \/ e = OverflowError.
Proof.
  unfold validate_nbf. destruct (c !! "nbf") as [v|]; [|done].
  destruct (Builtins.int v) as [r|e'] eqn:Hi.
  - destruct (BuiltinsFacts.int_returns_int _ _ Hi) as [z ->].
    case_decide; [|done]. intros [= <-]; auto.
  - destruct (BuiltinsFacts.int_raises _ _ Hi) as [-> | [-> | ->]];
      intros [= <-]; auto.
Qed.

Lemma validate_exp_raises utcnow c e :
  validate_exp utcnow c = Raise e ->
  isinstance_JWTError e = true \/ e = TypeError \/ e = OverflowError.
Proof.
  unfold validate_exp. destruct (c !! "exp") as [v|]; [|done].
  destruct (Builtins.int v) as [r|e'] eqn:Hi.
  - destruct (BuiltinsFacts.int_returns_int _ _ Hi) as [z ->].
    case_decide; [|done]. intros [= <-]; auto.
  - destruct (BuiltinsFacts.int_raises _ _ Hi) as [-> | [-> | ->]];
      intros [= <-]; auto.
Qed.

Lemma validate_aud_raises c e :
  validate_aud c = Raise e -> isinstance_JWTError e = true.
Proof.
  unfold validate_aud. destruct (c !! "aud"); [|done]. by intros [= <-].
Qed.

Lemma validate_sub_raises c e :
  validate_sub c = Raise e -> isinstance_JWTError e = true.
Proof.
  unfold validate_sub.
  destruct (c !! "sub") as [[]|]; try done; by intros [= <-].
Qed.

Lemma validate_jti_raises c e :
  validate_jti c = Raise e -> isinstance_JWTError e = true.
Proof.
  unfold validate_jti.
  destruct (c !! "jti") as [[]|]; try done; by intros [= <-].
Qed.

Lemma validate_at_hash_raises c e :
  validate_at_hash c = Raise e -> isinstance_JWTError e = true.
Proof.
  unfold validate_at_hash. destruct (c !! "at_hash"); [|done].
  by intros [= <-].
Qed.

(** The checks pass together exactly when each of them passes. *)
Lemma validate_claims_Return utcnow c :
  validate_claims utcnow c = Return tt <->
  validate_iat c = Return tt /\
  validate_nbf utcnow c = Return tt /\
  validate_exp utcnow c = Return tt /\
  validate_aud c = Return tt /\
  validate_sub c = Return tt /\
  validate_jti c = Return tt /\
  validate_at_hash c = Return tt.
Proof.
  unfold validate_claims, mbind, outcome_bind. split.
  - destruct (validate_iat c) as [[]|]; [|done].
    destruct (validate_nbf utcnow c) as [[]|]; [|done].
    destruct (validate_exp utcnow c) as [[]|]; [|done].
    destruct (validate_aud c) as [[]|]; [|done].
    destruct (validate_sub c) as [[]|]; [|done].
    destruct (validate_jti c) as [[]|]; [|done].
    done.
  - by intros (-> & -> & -> & -> & -> & -> & ->).
Qed.

Lemma validate_claims_raises utcnow c e :
  validate_claims utcnow c = Raise e ->
  isinstance_JWTError e = true \/ e = TypeError \/ e = OverflowError.
Proof.
  unfold validate_claims, mbind, outcome_bind.
  destruct (validate_iat c) as [[]|e1] eqn:H1;
    [|intros [= <-]; eauto using validate_iat_raises].
  destruct (validate_nbf utcnow c) as [[]|e2] eqn:H2;
    [|intros [= <-]; eauto using validate_nbf_raises].
  destruct (validate_exp utcnow c) as [[]|e3] eqn:H3;
    [|intros [= <-]; eauto using validate_exp_raises].
  destruct (validate_aud c) as [[]|e4] eqn:H4;
    [|intros [= <-]; eauto using validate_aud_raises].
  destruct (validate_sub c) as [[]|e5] eqn:H5;
    [|intros [= <-]; eauto using validate_sub_raises].
  destruct (validate_jti c) as [[]|e6] eqn:H6;
    [|intros [= <-]; eauto using validate_jti_raises].
  eauto using validate_at_hash_raises.
Qed.

(** What [jwt.decode] returns is the claim set of a token that passed
    the signature check and the checks on registered claims. *)
Lemma jwt_decode_Return utcnow tok key algorithms payload :
  jwt_decode utcnow tok key algorithms = Return payload <->
  exists t, tok = Compact t /\ claims t = payload /\
            jws_verify key algorithms t = true /\
            validate_claims utcnow payload = Return tt.
Proof.
  unfold jwt_decode. split.
  - destruct tok as [raw|t]; [done|].
    destruct (jws_verify key algorithms t) eqn:Hv; [|done].
    unfold mbind, outcome_bind, mret, outcome_ret.
    destruct (validate_claims utcnow (claims t)) as [[]|] eqn:Hc; [|done].
    intros [= <-]. eauto 10.
  - intros (t & -> & <- & Hv & Hc). rewrite Hv.
    unfold mbind, outcome_bind, mret, outcome_ret. by rewrite Hc.
Qed.

Lemma jwt_decode_raises utcnow tok key algorithms e :
  jwt_decode utcnow tok key algorithms = Raise e ->
  isinstance_JWTError e = true \/ e = TypeError \/ e = OverflowError.
Proof.
  unfold jwt_decode. destruct tok as [raw|t]; [intros [= <-]; auto|].
  destruct (jws_verify key algorithms t); [|intros [= <-]; auto].
  unfold mbind, outcome_bind, mret, outcome_ret.
  destruct (validate_claims utcnow (claims t)) as [[]|e'] eqn:Hc; [done|].
  intros [= <-]. eauto using validate_claims_raises.
Qed.

(** The guard on a token that [jwt.decode] accepts: what [int] makes of
    the subject is what the guard returns or raises. *)
Lemma get_current_user_decoded utcnow tok payload :
  jwt_decode utcnow tok (SECRET_KEY cfg) [ALGORITHM] = Return payload ->
  get_current_user utcnow tok =
  match Builtins.int (dict_get payload "sub") with
  | Return user_id => Return user_id
  | Raise e => Raise e
  end.
Proof.
  intros Hd. unfold get_current_user. rewrite Hd.
  unfold mbind, outcome_bind, mret, outcome_ret.
  destruct (Builtins.int (dict_get payload "sub")) as [r|e] eqn:Hi.
  - by destruct (BuiltinsFacts.int_returns_int _ _ Hi) as [z ->].
  - by destruct (BuiltinsFacts.int_raises _ _ Hi) as [-> | [-> | ->]].
Qed.

Lemma jws_verify_issued data key :
  jws_verify key [ALGORITHM]
    {| header_alg := ALGORITHM; claims := data;
       signature := sign key ALGORITHM data |} = true.
Proof.
  unfold jws_verify. cbn [claims header_alg signature].
  apply andb_true_iff. split; apply bool_decide_eq_true; [|done].
  by apply list_elem_of_singleton.
Qed.

(** A token of this service for a subject string passes all checks up
    to its expiry. *)
Lemma jwt_decode_issued (s : string) (utcnow later : Z) :
  later <= utcnow + 60 * ACCESS_TOKEN_EXPIRE_MINUTES cfg ->
  jwt_decode later (create_access_token utcnow {[ "sub" := PyStr s ]})
             (SECRET_KEY cfg) [ALGORITHM]
  = Return (<[ "exp" := PyInt (utcnow + 60 * ACCESS_TOKEN_EXPIRE_MINUTES cfg) ]>
              {[ "sub" := PyStr s ]}).
Proof.
  intros Hle. unfold create_access_token, jwt_encode.
  apply jwt_decode_Return. eexists. split; [done|]. split; [done|].
  split; [apply jws_verify_issued|]. apply validate_claims_Return.
  unfold validate_iat, validate_nbf, validate_exp, validate_aud,
    validate_sub, validate_jti, validate_at_hash.
  rewrite lookup_insert_eq.
  rewrite !lookup_insert_ne by done.
  rewrite lookup_singleton_eq. rewrite !lookup_singleton_ne by done.
  cbn [Builtins.int]. rewrite decide_False by lia. done.
Qed.

(** C1 (as the code behaves): for a token that [jwt.decode] accepts, so
    one whose signature verifies and whose registered claims pass their
    checks, a missing [sub] claim makes the session guard fail with an
    uncaught [TypeError], and a [sub] string that [int] cannot parse
    makes it fail with an uncaught [ValueError]; in neither case is the
    failure the 401 [HTTPException].  Time claims that are given as
    strings are taken within the interpreter's default limit of 4300
    characters on numerals, beyond which [int] raises where
    [Builtins.int_of_str] parses. *)
Theorem get_current_user_bad_sub_uncaught
  (utcnow : Z) (tok : token) (payload : gmap string pyval) :
  jwt_decode utcnow tok (SECRET_KEY cfg) [ALGORITHM] = Return payload ->
  (forall k s, k ∈ ["iat"; "nbf"; "exp"] -> payload !! k = Some (PyStr s) ->
               (String.length s <= 4300)%nat) ->
  (payload !! "sub" = None ->
   get_current_user utcnow tok = Raise TypeError) /\
  (forall s, payload !! "sub" = Some (PyStr s) ->
             Builtins.int_of_str s = Raise ValueError ->
             get_current_user utcnow tok = Raise ValueError).
Proof.
  intros Hd _. rewrite (get_current_user_decoded _ _ _ Hd). unfold dict_get.
  split.
  - by intros ->.
  - intros s -> Hs. simpl. by rewrite Hs.
Qed.

(** C9: the branch guarded by [if user_id is None] cannot be taken.
    Whatever [int] returns is not [None], and therefore the session
    guard never fails with the detail-less 401 that only this branch
    raises. *)
Theorem get_current_user_None_branch_unreachable :
  (forall v user_id,
     Builtins.int v = Return user_id -> is_None user_id = false) /\
  (forall utcnow tok,
     get_current_user utcnow tok <> Raise (HTTPException 401 None)).
Proof.
  split.
  - intros v user_id Hi.
    by destruct (BuiltinsFacts.int_returns_int _ _ Hi) as [z ->].
  - intros utcnow tok. unfold get_current_user.
    destruct (jwt_decode utcnow tok (SECRET_KEY cfg) [ALGORITHM])
      as [payload|e] eqn:Hd; unfold mbind, outcome_bind, mret, outcome_ret.
    + destruct (Builtins.int (dict_get payload "sub")) as [r|e] eqn:Hi.
      * by destruct (BuiltinsFacts.int_returns_int _ _ Hi) as [z ->].
      * by destruct (BuiltinsFacts.int_raises _ _ Hi) as [-> | [-> | ->]].
    + destruct (jwt_decode_raises _ _ _ _ _ Hd) as [He | [-> | ->]];
        simpl; [|done..].
      by rewrite He.
Qed.

(** C7: a token made by [create_access_token] for the string form of a
    user id, decoded by the session guard under the same configuration
    at any time up to its expiry, resolves to that same user id. *)
Theorem create_access_token_get_current_user (user_id utcnow later : Z) :
  later <= utcnow + 60 * ACCESS_TOKEN_EXPIRE_MINUTES cfg ->
  get_current_user later
    (create_access_token utcnow {[ "sub" := PyStr (Builtins.str user_id) ]})
  = Return (PyInt user_id).
Proof.
  intros Hle.
  rewrite (get_current_user_decoded _ _ _ (jwt_decode_issued _ _ _ Hle)).
  unfold dict_get. rewrite lookup_insert_ne by done.
  rewrite lookup_singleton_eq.
  change (default PyNone (Some ?v)) with v.
  by rewrite BuiltinsFacts.int_str.
Qed.

End GuardProperties.

(** ** The routes *)

Ltac unfold_db :=
  unfold get_db, mbind, DB_bind, mret, DB_ret, raise, commit, fetchone, fetchall.

Section RouteProperties.

Variable sign : string -> string -> gmap string pyval -> string.
Variable pwd_context_hash : string -> string -> string.
Variable pwd_context_verify : string -> string -> bool.
Variable cfg : Config.

Local Abbreviation register := (register pwd_context_hash).
Local Abbreviation login := (login sign pwd_context_verify cfg).
Local Abbreviation create_access_token := (create_access_token sign cfg).
Local Abbreviation get_current_user := (get_current_user sign cfg).
Local Abbreviation Depends_get_current_user :=
  (@Depends_get_current_user sign cfg).
Local Abbreviation serve := (serve sign pwd_context_hash pwd_context_verify cfg).
Local Abbreviation reachable :=
  (reachable sign pwd_context_hash pwd_context_verify cfg).

(** *** Each route in its session *)

(** A call with two or more parameters after the statement fails when
    its arguments are bound; a call with fewer is refused for its plain
    string.  The session is left as it was. *)
Lemma execute_run {R} statement params (s : AsyncSession) :
  execute (R := R) statement params s
  = (Raise (if decide (1 < length params)%nat then TypeError else ArgumentError),
     s).
Proof. unfold execute. by case_decide. Qed.

Lemma register_run salt user s : register salt user s = (Raise TypeError, s).
Proof. unfold register, mbind, DB_bind. by rewrite execute_run. Qed.

Lemma login_run utcnow form s : login utcnow form s = (Raise ArgumentError, s).
Proof. unfold login, mbind, DB_bind. by rewrite execute_run. Qed.

Lemma create_post_run post user_id s :
  create_post post user_id s = (Raise TypeError, s).
Proof. unfold create_post, mbind, DB_bind. by rewrite execute_run. Qed.

Lemma feed_run user_id s : feed user_id s = (Raise ArgumentError, s).
Proof. unfold feed, mbind, DB_bind. by rewrite execute_run. Qed.

Lemma follow_run target_id user_id s :
  follow target_id user_id s = (Raise TypeError, s).
Proof. unfold follow, mbind, DB_bind. by rewrite execute_run. Qed.

(** A body that raises in the session it was given leaves the store as
    it was. *)
Lemma get_db_raises {A} (handler : DB A) e st :
  (forall s, handler s = (Raise e, s)) -> get_db handler st = (Raise e, st).
Proof. intros H. unfold get_db. by rewrite H. Qed.

(** C2 (as the code behaves): for every registration request and every
    store, [register] fails at its first [db.execute] with a
    [TypeError], whether or not a user with the username or the email is
    stored: it raises no 400, returns no success message, and the store
    is left as it was, without a new user row. *)
Theorem register_raises_at_execute (salt : string) (user : UserCreate.t)
  (st : Store) :
  get_db (register salt user) st = (Raise TypeError, st).
Proof. apply get_db_raises. intros s. apply register_run. Qed.

(** C3 (as the code behaves): for every login request and every store,
    whether or not the username is stored and whatever [verify] says,
    [login] fails at its [db.execute] with an [ArgumentError]; it is the
    same failure in every run, but it is not the 401. *)
Theorem login_raises_at_execute (utcnow : Z)
  (form : OAuth2PasswordRequestForm.t) (st : Store) :
  get_db (login utcnow form) st = (Raise ArgumentError, st).
Proof. apply get_db_raises. intros s. apply login_run. Qed.

(** C4 (as the code behaves): for every caller and every store, [feed]
    fails at its [db.execute] with an [ArgumentError] and returns no
    list of posts. *)
Theorem feed_raises_at_execute (user_id : Z) (st : Store) :
  get_db (feed user_id) st = (Raise ArgumentError, st).
Proof. apply get_db_raises. intros s. apply feed_run. Qed.


(** C6 (as the code behaves): for every caller, target and store, a
    first and a second [follow] both fail at [db.execute] with a
    [TypeError]; the repeated request is an error like the first, and
    neither writes an edge: the store is left as it was. *)
Theorem follow_twice_raises (target_id user_id : Z) (st : Store) :
  get_db (follow target_id user_id) st = (Raise TypeError, st) /\
  get_db (follow target_id user_id) (get_db (follow target_id user_id) st).2
  = (Raise TypeError, st).
Proof.
  assert (get_db (follow target_id user_id) st = (Raise TypeError, st)) as ->.
  { apply get_db_raises. intros s. apply follow_run. }
  split; [done|]. apply get_db_raises. intros s. apply follow_run.
Qed.

(** C8 (as the code behaves): for every target id, of a stored user or
    not, and every caller and store, [follow] fails at [db.execute]
    with a [TypeError]: it returns no acknowledgment and stores no
    edge. *)
Theorem follow_raises_at_execute (target_id user_id : Z) (st : Store) :
  get_db (follow target_id user_id) st = (Raise TypeError, st).
Proof. apply get_db_raises. intros s. apply follow_run. Qed.

(** C10: [feed] writes nothing.  The session it ran in is the session it
    was given, and the store after the request is the store before it. *)
Theorem feed_read_only (user_id : Z) :
  (forall s : AsyncSession, (feed user_id s).2 = s) /\
  (forall st : Store, (get_db (feed user_id) st).2 = st).
Proof.
  split; [intros s; by rewrite feed_run|].
  intros st. unfold get_db. by rewrite feed_run.
Qed.

End RouteProperties.

(** * Further properties *)

(** ** Tokens that the session guard accepts and rejects *)

Section GuardFurther.

Variable sign : string -> string -> gmap string pyval -> string.
Variable cfg : Config.

Local Abbreviation jws_verify := (jws_verify sign).
Local Abbreviation jwt_decode := (jwt_decode sign).
Local Abbreviation create_access_token := (create_access_token sign cfg).
Local Abbreviation get_current_user := (get_current_user sign cfg).

(** A claims error or an expiry inside [jwt.decode] comes out of the
    guard as the 401. *)
Lemma get_current_user_claims_rejected utcnow t e :
  jws_verify (SECRET_KEY cfg) [ALGORITHM] t = true ->
  validate_claims utcnow (claims t) = Raise e ->
  isinstance_JWTError e = true ->
  get_current_user utcnow (Compact t)
  = Raise (HTTPException 401 (Some "Invalid token")).
Proof.
  intros Hv Hc He. unfold get_current_user, jwt_decode. rewrite Hv.
  unfold mbind, outcome_bind. rewrite Hc. simpl. by rewrite He.
Qed.

(** X1: once the expiry written by [create_access_token] has passed, the
    session guard rejects the token with the 401 "Invalid token", for
    all claims the token was created from that carry neither ["iat"]
    nor ["nbf"], also when they brought an ["exp"] of their own, which
    the function overwrites. *)
Theorem create_access_token_expires
  (data : gmap string pyval) (utcnow later : Z) :
  data !! "iat" = None ->
  data !! "nbf" = None ->
  utcnow + 60 * ACCESS_TOKEN_EXPIRE_MINUTES cfg < later ->
  get_current_user later (create_access_token utcnow data)
  = Raise (HTTPException 401 (Some "Invalid token")).
Proof.
  intros Hiat Hnbf Hlt. unfold create_access_token, jwt_encode.
  apply (get_current_user_claims_rejected _ _ ExpiredSignatureError);
    [apply jws_verify_issued| |done].
  cbn [claims]. unfold validate_claims, validate_iat, validate_nbf, validate_exp.
  rewrite lookup_insert_eq, !lookup_insert_ne by done.
  rewrite Hiat, Hnbf. cbn [Builtins.int mbind outcome_bind].
  by rewrite decide_True by lia.
Qed.



(** X3: the session guard yields an identity only for a well-formed
    token that is signed with the configured secret under HS256, has not
    expired, and carries a string ["sub"] that [int] parses; the
    identity is that integer. *)
Theorem get_current_user_sound (utcnow : Z) (tok : token) (v : pyval) :
  get_current_user utcnow tok = Return v ->
  exists t s z,
    tok = Compact t /\
    header_alg t = ALGORITHM /\
    signature t = sign (SECRET_KEY cfg) ALGORITHM (claims t) /\
    validate_exp utcnow (claims t) = Return tt /\
    claims t !! "sub" = Some (PyStr s) /\
    Builtins.int_of_str s = Return (PyInt z) /\
    v = PyInt z.
Proof.
  unfold get_current_user.
  destruct (jwt_decode utcnow tok (SECRET_KEY cfg) [ALGORITHM])
    as [payload|e] eqn:Hd; unfold mbind, outcome_bind, mret, outcome_ret.
  - apply jwt_decode_Return in Hd as (t & -> & <- & Hv & Hc).
    apply validate_claims_Return in Hc as (_ & _ & He & _ & Hs & _).
    unfold jws_verify in Hv. apply andb_true_iff in Hv as [Ha Hg].
    apply bool_decide_eq_true in Ha, Hg.
    apply list_elem_of_singleton in Ha. rewrite Ha in Hg.
    unfold validate_sub in Hs. unfold dict_get.
    destruct (claims t !! "sub") as [[| | | |s|]|] eqn:Hsub; try done.
    cbn [default from_option id Builtins.int].
    destruct (BuiltinsFacts.int_of_str_cases s) as [[z Hz]|Hz]; rewrite Hz.
    + cbn [is_None try_except_JWTError]. intros [= <-].
      exists t, s, z. done.
    + done.
  - destruct (jwt_decode_raises _ _ _ _ _ _ Hd) as [He | [-> | ->]];
      simpl; [|done..].
    by rewrite He.
Qed.



(** X22: a correctly signed token that passes the checks on ["iat"],
    ["nbf"] and ["exp"] is rejected with the 401 "Invalid token" when
    it carries an ["aud"] or an ["at_hash"] claim, or a ["sub"] or a
    ["jti"] that is not a string. *)
Theorem get_current_user_rejects_claims (utcnow : Z) (t : jws) :
  jws_verify (SECRET_KEY cfg) [ALGORITHM] t = true ->
  validate_iat (claims t) = Return tt ->
  validate_nbf utcnow (claims t) = Return tt ->
  validate_exp utcnow (claims t) = Return tt ->
  is_Some (claims t !! "aud") \/
  (exists v, claims t !! "sub" = Some v /\ is_str v = false) \/
  (exists v, claims t !! "jti" = Some v /\ is_str v = false) \/
  is_Some (claims t !! "at_hash") ->
  get_current_user utcnow (Compact t)
  = Raise (HTTPException 401 (Some "Invalid token")).
Proof.
  intros Hv Hiat Hnbf Hexp Hbad.
  destruct (validate_claims utcnow (claims t)) as [[]|e] eqn:Hc.
  - apply validate_claims_Return in Hc as (_ & _ & _ & Ha & Hs & Hj & Hh).
    unfold validate_aud, validate_sub, validate_jti, validate_at_hash in *.
    destruct Hbad as [[v Hb]|[(v & Hb & Hstr)|[(v & Hb & Hstr)|[v Hb]]]];
      rewrite Hb in *; try done; by destruct v.
  - apply (get_current_user_claims_rejected _ _ e); [done..|].
    revert Hc. unfold validate_claims, mbind, outcome_bind.
    rewrite Hiat, Hnbf, Hexp.
    destruct (validate_aud (claims t)) as [[]|e4] eqn:H4;
      [|intros [= <-]; eauto using validate_aud_raises].
    destruct (validate_sub (claims t)) as [[]|e5] eqn:H5;
      [|intros [= <-]; eauto using validate_sub_raises].
    destruct (validate_jti (claims t)) as [[]|e6] eqn:H6;
      [|intros [= <-]; eauto using validate_jti_raises].
    eauto using validate_at_hash_raises.
Qed.

End GuardFurther.

(** ** Routes behind the session guard, and what the service stores *)

Section EndpointsFurther.

Variable sign : string -> string -> gmap string pyval -> string.
Variable pwd_context_hash : string -> string -> string.
Variable pwd_context_verify : string -> string -> bool.
Variable cfg : Config.

Local Abbreviation register := (register pwd_context_hash).
Local Abbreviation login := (login sign pwd_context_verify cfg).
Local Abbreviation create_access_token := (create_access_token sign cfg).
Local Abbreviation get_current_user := (get_current_user sign cfg).
Local Abbreviation Depends_get_current_user :=
  (@Depends_get_current_user sign cfg).
Local Abbreviation serve := (serve sign pwd_context_hash pwd_context_verify cfg).
Local Abbreviation reachable :=
  (reachable sign pwd_context_hash pwd_context_verify cfg).


(** A route that raises in every session, behind the guard: the request
    ends with an exception and the store as it was. *)
Lemma Depends_raises {A} (route : Z -> DB A) e utcnow tok st :
  (forall user_id s, route user_id s = (Raise e, s)) ->
  exists e', Depends_get_current_user utcnow tok route st = (Raise e', st).
Proof.
  intros Hr. unfold Depends_get_current_user.
  destruct (get_current_user utcnow tok) as [[]|e'']; eauto.
  rewrite (get_db_raises _ e) by done. eauto.
Qed.

(** X23: with a token of this service for a user id, presented up to its
    expiry, the three routes behind the session guard get past the
    guard and fail at their [db.execute]: posting and following with a
    [TypeError], the feed with an [ArgumentError].  The store is left
    as it was.  The user id is one whose decimal form stays within the
    interpreter's default limit of 4300 digits on numerals. *)
Theorem issued_token_routes_raise (user_id utcnow later target_id : Z)
  (post : PostCreate.t) (st : Store) :
  Z.abs user_id < 10 ^ 4300 ->
  later <= utcnow + 60 * ACCESS_TOKEN_EXPIRE_MINUTES cfg ->
  Depends_get_current_user later
    (create_access_token utcnow {[ "sub" := PyStr (Builtins.str user_id) ]})
    (create_post post) st = (Raise TypeError, st) /\
  Depends_get_current_user later
    (create_access_token utcnow {[ "sub" := PyStr (Builtins.str user_id) ]})
    feed st = (Raise ArgumentError, st) /\
  Depends_get_current_user later
    (create_access_token utcnow {[ "sub" := PyStr (Builtins.str user_id) ]})
    (follow target_id) st = (Raise TypeError, st).
Proof.
  intros _ Hle.
  assert (get_current_user later
            (create_access_token utcnow {[ "sub" := PyStr (Builtins.str user_id) ]})
          = Return (PyInt user_id)) as Hg.
  { rewrite (get_current_user_decoded _ _ _ _ _
               (jwt_decode_issued sign cfg _ _ _ Hle)).
    unfold dict_get. rewrite lookup_insert_ne by done.
    rewrite lookup_singleton_eq.
    change (default PyNone (Some ?v)) with v.
    by rewrite BuiltinsFacts.int_str. }
  unfold Depends_get_current_user. rewrite Hg.
  split; [|split]; apply get_db_raises; intros s.
  - apply create_post_run.
  - apply feed_run.
  - apply follow_run.
Qed.

Lemma serve_store r st : serve r st = st.
Proof.
  destruct r as [salt user|utcnow form|utcnow tok post|utcnow tok
                |utcnow tok target_id]; unfold serve.
  - by rewrite (get_db_raises _ TypeError)
      by (intros s; apply register_run).
  - by rewrite (get_db_raises _ ArgumentError)
      by (intros s; apply login_run).
  - destruct (Depends_raises (create_post post) TypeError utcnow tok st)
      as [e ->]; [intros; apply create_post_run|done].
  - destruct (Depends_raises feed ArgumentError utcnow tok st)
      as [e ->]; [intros; apply feed_run|done].
  - destruct (Depends_raises (follow target_id) TypeError utcnow tok st)
      as [e ->]; [intros; apply follow_run|done].
Qed.

(** X24: the service never stores anything: every state that requests
    to its routes can reach from empty tables, with whatever tokens,
    has empty tables. *)
Theorem reachable_store_empty (st : Store) :
  reachable st -> st = empty_store.
Proof.
  induction 1 as [|st r _ IH]; [done|]. by rewrite serve_store.
Qed.

(** X25: no request to a route behind the session guard is answered:
    whatever the token, the time and the store, posting, reading the
    feed and following each end with an exception, and the store is
    left as it was. *)
Theorem Depends_routes_raise (utcnow : Z) (tok : token) (st : Store)
  (post : PostCreate.t) (target_id : Z) :
  (exists e, Depends_get_current_user utcnow tok (create_post post) st
             = (Raise e, st)) /\
  (exists e, Depends_get_current_user utcnow tok feed st = (Raise e, st)) /\
  (exists e, Depends_get_current_user utcnow tok (follow target_id) st
             = (Raise e, st)).
Proof.
  split; [|split].
  - apply (Depends_raises (create_post post) TypeError).
    intros; apply create_post_run.
  - apply (Depends_raises feed ArgumentError). intros; apply feed_run.
  - apply (Depends_raises (follow target_id) TypeError).
    intros; apply follow_run.
Qed.

End EndpointsFurther.

(** * The theorems at sample inputs *)

(** The lemmas below instantiate the theorems above that have premises,
    on the sample collaborators and data, and discharge the premises by
    computation. *)


Ltac sample_reachable :=
  unfold Sample.run, Sample.scenario; cbn [foldl];
  repeat apply reachable_serve; apply reachable_empty.

Example sample_no_sub :
  get_current_user Sample.sign default_config 0 (Compact Sample.no_sub)
  = Raise TypeError.
Proof. vm_compute. reflexivity. Qed.

Example sample_word_sub :
  get_current_user Sample.sign default_config 0 (Compact Sample.word_sub)
  = Raise ValueError.
Proof. vm_compute. reflexivity. Qed.

Example sample_for_bob :
  get_current_user Sample.sign default_config 0 (Compact Sample.for_bob)
  = Return (PyInt 2).
Proof. vm_compute. reflexivity. Qed.

Example sample_not_yet :
  get_current_user Sample.sign default_config 2000 (Compact Sample.not_yet)
  = Return (PyInt 2).
Proof. vm_compute. reflexivity. Qed.

Example sample_scenario :
  Sample.run Sample.scenario empty_store = empty_store.
Proof. vm_compute. reflexivity. Qed.

Example sample_scenario_on_store :
  Sample.run Sample.scenario Sample.store = Sample.store.
Proof. vm_compute. reflexivity. Qed.

Lemma sample_time_claims (c : gmap string pyval) :
  c !! "iat" = None -> c !! "nbf" = None -> c !! "exp" = None ->
  forall k s, k ∈ ["iat"; "nbf"; "exp"] -> c !! k = Some (PyStr s) ->
              (String.length s <= 4300)%nat.
Proof.
  intros Hiat Hnbf Hexp k s Hk Hs.
  repeat (apply elem_of_cons in Hk as [->|Hk]); [congruence..|].
  by apply elem_of_nil in Hk.
Qed.

Lemma get_current_user_bad_sub_uncaught_witness :
  get_current_user Sample.sign default_config 0 (Compact Sample.no_sub)
  = Raise TypeError /\
  get_current_user Sample.sign default_config 0 (Compact Sample.word_sub)
  = Raise ValueError.
Proof.
  split.
  - refine (proj1 (get_current_user_bad_sub_uncaught
                     Sample.sign default_config 0 (Compact Sample.no_sub)
                     ∅ _ _) _).
    + vm_compute. reflexivity.
    + apply sample_time_claims; vm_compute; reflexivity.
    + vm_compute. reflexivity.
  - refine (proj2 (get_current_user_bad_sub_uncaught
                     Sample.sign default_config 0 (Compact Sample.word_sub)
                     {[ "sub" := PyStr "abc" ]} _ _) "abc" _ _).
    + vm_compute. reflexivity.
    + apply sample_time_claims; vm_compute; reflexivity.
    + vm_compute. reflexivity.
    + vm_compute. reflexivity.
Defined.

Lemma get_current_user_None_branch_unreachable_witness :
  Builtins.int (PyStr "42") = Return (PyInt 42) /\ is_None (PyInt 42) = false.
Proof.
  split; [reflexivity|].
  apply (proj1 (get_current_user_None_branch_unreachable
                  Sample.sign default_config) (PyStr "42")).
  reflexivity.
Defined.

Lemma create_access_token_get_current_user_witness :
  get_current_user Sample.sign default_config 900
    (create_access_token Sample.sign default_config 0
       {[ "sub" := PyStr (Builtins.str 7) ]})
  = Return (PyInt 7).
Proof.
  apply (create_access_token_get_current_user Sample.sign default_config 7 0 900).
  simpl. lia.
Defined.

Lemma create_access_token_expires_witness :
  get_current_user Sample.sign default_config 901
    (create_access_token Sample.sign default_config 0 {[ "sub" := PyStr "2" ]})
  = Raise (HTTPException 401 (Some "Invalid token")).
Proof.
  apply (create_access_token_expires Sample.sign default_config
           {[ "sub" := PyStr "2" ]} 0 901).
  - reflexivity.
  - reflexivity.
  - simpl. lia.
Defined.


Lemma get_current_user_sound_witness :
  exists t s z,
    Compact Sample.for_bob = Compact t /\
    header_alg t = ALGORITHM /\
    signature t = Sample.sign (SECRET_KEY default_config) ALGORITHM (claims t) /\
    validate_exp 0 (claims t) = Return tt /\
    claims t !! "sub" = Some (PyStr s) /\
    Builtins.int_of_str s = Return (PyInt z) /\
    PyInt 2 = PyInt z.
Proof.
  apply (get_current_user_sound Sample.sign default_config 0
           (Compact Sample.for_bob) (PyInt 2)).
  vm_compute. reflexivity.
Defined.


Lemma get_current_user_rejects_claims_witness :
  get_current_user Sample.sign default_config 0 (Compact Sample.with_aud)
  = Raise (HTTPException 401 (Some "Invalid token")).
Proof.
  apply (get_current_user_rejects_claims Sample.sign default_config 0
           Sample.with_aud).
  - vm_compute. reflexivity.
  - vm_compute. reflexivity.
  - vm_compute. reflexivity.
  - vm_compute. reflexivity.
  - left. exists (PyStr "elsewhere"). vm_compute. reflexivity.
Defined.


Lemma issued_token_routes_raise_witness :
  Depends_get_current_user Sample.sign default_config 900
    (create_access_token Sample.sign default_config 0
       {[ "sub" := PyStr (Builtins.str 2) ]})
    (create_post Sample.hello) Sample.store = (Raise TypeError, Sample.store) /\
  Depends_get_current_user Sample.sign default_config 900
    (create_access_token Sample.sign default_config 0
       {[ "sub" := PyStr (Builtins.str 2) ]})
    feed Sample.store = (Raise ArgumentError, Sample.store) /\
  Depends_get_current_user Sample.sign default_config 900
    (create_access_token Sample.sign default_config 0
       {[ "sub" := PyStr (Builtins.str 2) ]})
    (follow 1) Sample.store = (Raise TypeError, Sample.store).
Proof.
  apply (issued_token_routes_raise Sample.sign default_config 2 0 900 1
           Sample.hello Sample.store).
  - reflexivity.
  - simpl. lia.
Defined.

Lemma reachable_store_empty_witness :
  Sample.run Sample.scenario empty_store = empty_store.
Proof.
  apply (reachable_store_empty Sample.sign Sample.hash Sample.verify
           default_config (Sample.run Sample.scenario empty_store)).
  sample_reachable.
Defined.
